(** Shallow embedding of
    src/vs/workbench/contrib/remote/browser/remoteExplorer.ts:
    the two workbench contributions [AutomaticPortForwarding] and
    [ForwardedPortsView], with the collaborator services reduced to the
    values they return and the disposables they hand out.

    Disposables are modelled by handles (natural numbers): every
    subscription or UI item the code creates gets a fresh handle, and a
    list of "live" handles records which of them have not been disposed. *)

From Stdlib Require Import List Bool Arith Lia Ascii String.
Import ListNotations.

(** Disposing a handle removes it from the live list; disposing a handle
    that is no longer live does nothing. *)
Definition dispose (h : nat) (live : list nat) : list nat :=
  remove Nat.eq_dec h live.

Definition is_some {A} (o : option A) : bool :=
  match o with Some _ => true | None => false end.

(** * AutomaticPortForwarding *)
Module AutoForward.

Record local_url := mkLocalUrl { url_host : string; url_port : nat }.

(** The entry returned by [remoteExplorerService.forward]. *)
Record tunnel := mkTunnel {
  tunnelRemoteHost : string;
  tunnelRemotePort : nat;
  localAddress : string
}.

(** The controller's fields together with the three values it reads from
    its services. *)
Record state := mkState {
  remoteAuthority : bool;          (* environmentService.remoteAuthority set *)
  autoForwardPorts : bool;         (* getValue('remote.autoForwardPorts') *)
  viewEnabled : bool;              (* forwardedPortsViewEnabled.getValue(..) *)
  contextServiceListener : option nat;
  urlFinder : option nat;
  live_ctx : list nat;             (* live onDidChangeContext subscriptions *)
  live_finders : list nat;         (* UrlFinder instances not disposed *)
  match_listeners : list nat;      (* onDidMatchLocalUrl subscriptions, by finder *)
  finder_disposals : list nat;     (* UrlFinder.dispose() calls, latest first *)
  next_id : nat                    (* next fresh handle *)
}.

Definition set_autoForwardPorts (v : bool) (s : state) : state :=
  {| remoteAuthority := remoteAuthority s; autoForwardPorts := v;
     viewEnabled := viewEnabled s;
     contextServiceListener := contextServiceListener s;
     urlFinder := urlFinder s; live_ctx := live_ctx s;
     live_finders := live_finders s; match_listeners := match_listeners s;
     finder_disposals := finder_disposals s; next_id := next_id s |}.

Definition set_viewEnabled (v : bool) (s : state) : state :=
  {| remoteAuthority := remoteAuthority s; autoForwardPorts := autoForwardPorts s;
     viewEnabled := v;
     contextServiceListener := contextServiceListener s;
     urlFinder := urlFinder s; live_ctx := live_ctx s;
     live_finders := live_finders s; match_listeners := match_listeners s;
     finder_disposals := finder_disposals s; next_id := next_id s |}.

(** [this.contextServiceListener.dispose()]: the field keeps its value. *)
Definition dispose_contextServiceListener (s : state) : state :=
  match contextServiceListener s with
  | Some h =>
      {| remoteAuthority := remoteAuthority s; autoForwardPorts := autoForwardPorts s;
         viewEnabled := viewEnabled s;
         contextServiceListener := contextServiceListener s;
         urlFinder := urlFinder s; live_ctx := dispose h (live_ctx s);
         live_finders := live_finders s; match_listeners := match_listeners s;
         finder_disposals := finder_disposals s; next_id := next_id s |}
  | None => s
  end.

(** [this.urlFinder = this._register(new UrlFinder(..))] followed by
    [this._register(this.urlFinder.onDidMatchLocalUrl(..))]. *)
Definition new_UrlFinder (s : state) : state :=
  let f := next_id s in
  {| remoteAuthority := remoteAuthority s; autoForwardPorts := autoForwardPorts s;
     viewEnabled := viewEnabled s;
     contextServiceListener := contextServiceListener s;
     urlFinder := Some f; live_ctx := live_ctx s;
     live_finders := f :: live_finders s; match_listeners := f :: match_listeners s;
     finder_disposals := finder_disposals s; next_id := S f |}.

Definition startUrlFinder (s : state) : state :=
  if negb (is_some (urlFinder s)) && negb (viewEnabled s) then s
  else new_UrlFinder (dispose_contextServiceListener s).

Definition stopUrlFinder (s : state) : state :=
  match urlFinder s with
  | Some f =>
      {| remoteAuthority := remoteAuthority s; autoForwardPorts := autoForwardPorts s;
         viewEnabled := viewEnabled s;
         contextServiceListener := contextServiceListener s;
         urlFinder := None; live_ctx := live_ctx s;
         live_finders := dispose f (live_finders s);
         match_listeners := match_listeners s;
         finder_disposals := f :: finder_disposals s; next_id := next_id s |}
  | None => s
  end.

Definition tryStartStopUrlFinder (s : state) : state :=
  if autoForwardPorts s then startUrlFinder s else stopUrlFinder s.

Definition initial (remote setting flag : bool) : state :=
  {| remoteAuthority := remote; autoForwardPorts := setting; viewEnabled := flag;
     contextServiceListener := None; urlFinder := None; live_ctx := [];
     live_finders := []; match_listeners := []; finder_disposals := [];
     next_id := 0 |}.

(** The constructor. The configuration listener is registered for the
    whole life of the controller and is represented by [step] below. *)
Definition construct (remote setting flag : bool) : state :=
  let s := initial remote setting flag in
  if remote then
    let h := next_id s in
    tryStartStopUrlFinder
      {| remoteAuthority := remote; autoForwardPorts := setting; viewEnabled := flag;
         contextServiceListener := Some h; urlFinder := None; live_ctx := [h];
         live_finders := []; match_listeners := []; finder_disposals := [];
         next_id := S h |}
  else s.

(** Whether the context listener subscription is still live. *)
Definition ctx_listening (s : state) : bool :=
  match contextServiceListener s with
  | Some h => existsb (Nat.eqb h) (live_ctx s)
  | None => false
  end.

(** Events from the configuration and context-key services: whether the
    change affects the watched key, and the key's value afterwards. *)
Inductive event :=
| ConfigChanged (affects : bool) (value : bool)
| ContextChanged (affects : bool) (value : bool).

Definition step (s : state) (e : event) : state :=
  match e with
  | ConfigChanged affects v =>
      if affects then tryStartStopUrlFinder (set_autoForwardPorts v s) else s
  | ContextChanged affects v =>
      if affects then
        let s' := set_viewEnabled v s in
        if ctx_listening s' then tryStartStopUrlFinder s' else s'
      else s
  end.

Definition run (s : state) (es : list event) : state := fold_left step es s.

Inductive reachable : state -> Prop :=
| reach_construct remote setting flag :
    reachable (construct remote setting flag)
| reach_step s e : reachable s -> reachable (step s e).

(** The [onDidMatchLocalUrl] handler. [mapHasTunnelLocalhostOrAllInterfaces]
    (remoteExplorerService) is left abstract: the handler is stated for
    every implementation of it. The awaited result of
    [remoteExplorerService.forward] is an input of the continuation. *)
Definition MakeAddress (host : string) (port : nat) : string * nat := (host, port).

Inductive effect :=
| Forward (u : local_url)
| Prompt (address : string * nat) (local : string)
         (choices : list string) (neverShowAgainId : string).

Section OnDidMatchLocalUrl.
Variable tunnel_map : Type.
Variable mapHasTunnelLocalhostOrAllInterfaces : tunnel_map -> string -> nat -> bool.

Definition forward_continuation (forwarded : option tunnel) : list effect :=
  match forwarded with
  | Some t =>
      [Prompt (MakeAddress (tunnelRemoteHost t) (tunnelRemotePort t))
              (localAddress t)
              ["Open in Browser"%string; "Show Forwarded Ports"%string]
              "remote.tunnelsView.autoForwardNeverShow"%string]
  | None => []
  end.

Definition onDidMatchLocalUrl (forwarded_map : tunnel_map) (localUrl : local_url)
    (forward_result : option tunnel) : list effect :=
  if mapHasTunnelLocalhostOrAllInterfaces forwarded_map (url_host localUrl) (url_port localUrl)
  then []
  else Forward localUrl :: forward_continuation forward_result.
End OnDidMatchLocalUrl.

Definition is_forward (e : effect) : bool :=
  match e with Forward _ => true | _ => false end.

Definition is_prompt (e : effect) : bool :=
  match e with Prompt _ _ _ _ => true | _ => false end.

End AutoForward.

(** * ForwardedPortsView

    Its methods touch two disjoint groups of fields: the panel
    registration ([enableForwardedPortsView]) and the badge and status-bar
    entry ([updateActivityBadge], [updateStatusBar]). Each group is its own
    record. *)
Module PortsView.

Record panel := mkPanel {
  remoteAuthority : bool;
  viewEnabled : bool;              (* forwardedPortsViewEnabled.getValue(..) *)
  viewContainerById : bool;        (* getViewContainerById(VIEWLET_ID) found *)
  contextKeyListener : option nat;
  live_listeners : list nat;       (* live onDidChangeContext subscriptions *)
  registrations : nat;             (* viewsRegistry.registerViews calls *)
  listener_next : nat
}.

Definition enableForwardedPortsView (s : panel) : panel :=
  let s1 :=
    match contextKeyListener s with
    | Some h =>
        {| remoteAuthority := remoteAuthority s; viewEnabled := viewEnabled s;
           viewContainerById := viewContainerById s; contextKeyListener := None;
           live_listeners := dispose h (live_listeners s);
           registrations := registrations s; listener_next := listener_next s |}
    | None => s
    end in
  if remoteAuthority s1 && viewEnabled s1 then
    if viewContainerById s1 then
      {| remoteAuthority := remoteAuthority s1; viewEnabled := viewEnabled s1;
         viewContainerById := viewContainerById s1;
         contextKeyListener := contextKeyListener s1;
         live_listeners := live_listeners s1;
         registrations := S (registrations s1); listener_next := listener_next s1 |}
    else s1
  else if remoteAuthority s1 then
    let h := listener_next s1 in
    {| remoteAuthority := remoteAuthority s1; viewEnabled := viewEnabled s1;
       viewContainerById := viewContainerById s1;
       contextKeyListener := Some h; live_listeners := h :: live_listeners s1;
       registrations := registrations s1; listener_next := S h |}
  else s1.

Definition set_viewEnabled (v : bool) (s : panel) : panel :=
  {| remoteAuthority := remoteAuthority s; viewEnabled := v;
     viewContainerById := viewContainerById s;
     contextKeyListener := contextKeyListener s;
     live_listeners := live_listeners s;
     registrations := registrations s; listener_next := listener_next s |}.

(** A context change: whether it affects the [forwardedPortsViewEnabled]
    keys, and the flag's value afterwards. Each subscription live when the
    event fires runs the listener body. *)
Inductive ctx_event := ContextChanged (affects : bool) (value : bool).

Definition panel_step (s : panel) (e : ctx_event) : panel :=
  match e with
  | ContextChanged affects v =>
      let s' := if affects then set_viewEnabled v s else s in
      fold_left (fun acc _ => if affects then enableForwardedPortsView acc else acc)
                (live_listeners s') s'
  end.

Definition panel_initial (remote flag vc : bool) : panel :=
  {| remoteAuthority := remote; viewEnabled := flag; viewContainerById := vc;
     contextKeyListener := None; live_listeners := []; registrations := 0;
     listener_next := 0 |}.

Definition panel_construct (remote flag vc : bool) : panel :=
  enableForwardedPortsView (panel_initial remote flag vc).

Definition flips_on (e : ctx_event) : bool :=
  match e with ContextChanged affects v => affects && v end.

Record badges := mkBadges {
  activityBadge : option nat;
  live_badges : list (nat * nat);  (* shown badges not disposed: (handle, count) *)
  badge_next : nat;                (* showViewContainerActivity calls so far *)
  entryAccessor : option nat;
  live_entries : list nat;         (* status-bar entries not disposed *)
  entry_next : nat
}.

Definition dispose_badge (b : nat) (l : list (nat * nat)) : list (nat * nat) :=
  filter (fun p => negb (Nat.eqb (fst p) b)) l.

(** [size] is [tunnelModel.forwarded.size]; [vc] says whether
    [getViewContainerByViewId(TUNNEL_VIEW_ID)] returns a container. The
    disposed badge stays in [_activityBadge]. *)
Definition updateActivityBadge (size : nat) (vc : bool) (s : badges) : badges :=
  let s1 :=
    match activityBadge s with
    | Some b =>
        {| activityBadge := activityBadge s;
           live_badges := dispose_badge b (live_badges s);
           badge_next := badge_next s; entryAccessor := entryAccessor s;
           live_entries := live_entries s; entry_next := entry_next s |}
    | None => s
    end in
  if 0 <? size then
    if vc then
      let b := badge_next s1 in
      {| activityBadge := Some b; live_badges := (b, size) :: live_badges s1;
         badge_next := S b; entryAccessor := entryAccessor s1;
         live_entries := live_entries s1; entry_next := entry_next s1 |}
    else s1
  else s1.

Definition updateStatusBar (size : nat) (s : badges) : badges :=
  match entryAccessor s with
  | None =>
      if 0 <? size then
        let e := entry_next s in
        {| activityBadge := activityBadge s; live_badges := live_badges s;
           badge_next := badge_next s; entryAccessor := Some e;
           live_entries := e :: live_entries s; entry_next := S e |}
      else s
  | Some e =>
      if size =? 0 then
        {| activityBadge := activityBadge s; live_badges := live_badges s;
           badge_next := badge_next s; entryAccessor := None;
           live_entries := dispose e (live_entries s); entry_next := entry_next s |}
      else s
  end.

(** The body shared by the [onForwardPort], [onClosePort] and
    [onViewsRegistered] listeners. *)
Definition onTunnelChange (size : nat) (vc : bool) (s : badges) : badges :=
  updateStatusBar size (updateActivityBadge size vc s).

Definition badges_initial : badges :=
  {| activityBadge := None; live_badges := []; badge_next := 0;
     entryAccessor := None; live_entries := []; entry_next := 0 |}.

Inductive badges_reachable : badges -> Prop :=
| breach_init : badges_reachable badges_initial
| breach_step s size vc :
    badges_reachable s -> badges_reachable (onTunnelChange size vc s).

End PortsView.

(** * The "Show Forwarded Ports" choice of the auto-forward prompt *)
Module ShowChoice.

(** [s.split('+')[0]]: the part of [s] before its first ['+'], or all of
    [s] when it has none. *)
Fixpoint split_plus_head (s : string) : string :=
  match s with
  | EmptyString => EmptyString
  | String c r => if Ascii.eqb c "+"%char then EmptyString else String c (split_plus_head r)
  end.

(** What follows that part: empty, or starting with the first ['+']. *)
Fixpoint split_plus_rest (s : string) : string :=
  match s with
  | EmptyString => EmptyString
  | String c r => if Ascii.eqb c "+"%char then s else split_plus_rest r
  end.

Fixpoint has_plus (s : string) : bool :=
  match s with
  | EmptyString => false
  | String c r => Ascii.eqb c "+"%char || has_plus r
  end.

(** The part of [remoteExplorerService] and [viewsService] the choice
    touches. *)
Record explorer := mkExplorer {
  targetType : option (list string);
  opened_containers : list string     (* openViewContainer calls, latest first *)
}.

Definition VIEWLET_ID : string := "workbench.view.remote".

(** [showChoice.run]. [remoteAuthority] is a [string | undefined]; the
    empty string is falsy. *)
Definition showChoice_run (remoteAuthority : option string) (x : explorer) : explorer :=
  let explorerType :=
    match remoteAuthority with
    | Some ra => if String.eqb ra EmptyString then None else Some [split_plus_head ra]
    | None => None
    end in
  let x1 :=
    match explorerType with
    | Some t => {| targetType := Some t; opened_containers := opened_containers x |}
    | None => x
    end in
  {| targetType := targetType x1; opened_containers := VIEWLET_ID :: opened_containers x1 |}.

End ShowChoice.

(** * Remaining listeners of ForwardedPortsView *)
Module PortsViewMore.
Import PortsView.

(** The panel states reachable from the constructor by context changes. *)
Inductive panel_reachable : panel -> Prop :=
| preach_construct remote flag vc : panel_reachable (panel_construct remote flag vc)
| preach_step s e : panel_reachable s -> panel_reachable (panel_step s e).

Section ViewsRegistered.
(** [TUNNEL_VIEW_ID] is a constant of remoteExplorerService. *)
Variable TUNNEL_VIEW_ID : string.

(** [e.find(view => view.views.find(d => d.id === TUNNEL_VIEW_ID))]: a
    registration batch is a list of groups, each listing its view ids. *)
Definition batch_has_tunnel (e : list (list string)) : bool :=
  existsb (fun views => existsb (String.eqb TUNNEL_VIEW_ID) views) e.

(** The [onViewsRegistered] subscription made by [enableBadgeAndStatusBar]
    (live or disposed) next to the badge and status-bar fields. A batch
    carries the forwarded-set size and the container lookup at that time. *)
Definition views_registered (e : list (list string)) (size : nat) (vc : bool)
    (st : bool * badges) : bool * badges :=
  let '(live, b) := st in
  if live && batch_has_tunnel e then (false, onTunnelChange size vc b) else st.

Fixpoint run_views_registered (es : list (list (list string) * nat * bool))
    (st : bool * badges) : bool * badges :=
  match es with
  | [] => st
  | (e, size, vc) :: es' => run_views_registered es' (views_registered e size vc st)
  end.

(** The size and lookup of the first batch that contains the tunnel view. *)
Fixpoint first_tunnel_batch (es : list (list (list string) * nat * bool))
    : option (nat * bool) :=
  match es with
  | [] => None
  | (e, size, vc) :: es' =>
      if batch_has_tunnel e then Some (size, vc) else first_tunnel_batch es'
  end.
End ViewsRegistered.

End PortsViewMore.

(** * Properties of AutomaticPortForwarding *)
Module AutoForwardFacts.
Import AutoForward.

(** Shape of the controller fields in every reachable state: the context
    listener is either gone or is the only live subscription of a
    controller that has not started a scanner, and the referenced scanner
    is live. *)
Definition ctl_inv (s : state) : Prop :=
  (live_ctx s = [] \/
   (exists h, contextServiceListener s = Some h /\ live_ctx s = [h] /\ urlFinder s = None)) /\
  (forall f, urlFinder s = Some f -> In f (live_finders s)).

Lemma startUrlFinder_inv s : ctl_inv s -> ctl_inv (startUrlFinder s).
Proof.
  intros [Hctx Hf]. unfold startUrlFinder.
  destruct (negb (is_some (urlFinder s)) && negb (viewEnabled s)).
  - split; assumption.
  - unfold dispose_contextServiceListener, new_UrlFinder.
    destruct (contextServiceListener s) as [h|] eqn:Ecl; simpl.
    + split; [|intros f' Hf'; inversion Hf'; left; reflexivity].
      left. destruct Hctx as [-> | (h' & Eh & -> & _)]; [reflexivity|].
      assert (h' = h) as -> by congruence. unfold dispose. simpl.
      destruct (Nat.eq_dec h h); [reflexivity | contradiction].
    + split; [|intros f' Hf'; inversion Hf'; left; reflexivity].
      left. destruct Hctx as [-> | (h' & Eh & _)]; [reflexivity|].
      congruence.
Qed.

Lemma stopUrlFinder_inv s : ctl_inv s -> ctl_inv (stopUrlFinder s).
Proof.
  intros [Hctx Hf]. unfold stopUrlFinder.
  destruct (urlFinder s) as [f|] eqn:Ef; simpl.
  - split; [|intros f' Hf'; discriminate].
    destruct Hctx as [Hn | (h & Eh & Hl & Hu)]; [left; exact Hn|].
    congruence.
  - split; [destruct Hctx as [Hn | (h & ? & ? & _)]; [left | right; exists h]; auto
            | intros f' Hf'; congruence].
Qed.

Lemma tryStartStopUrlFinder_inv s : ctl_inv s -> ctl_inv (tryStartStopUrlFinder s).
Proof.
  intros H. unfold tryStartStopUrlFinder.
  destruct (autoForwardPorts s);
    [apply startUrlFinder_inv | apply stopUrlFinder_inv]; exact H.
Qed.

Lemma step_inv s e : ctl_inv s -> ctl_inv (step s e).
Proof.
  intros H. destruct e as [a v | a v]; simpl; destruct a; try exact H.
  - apply tryStartStopUrlFinder_inv. exact H.
  - destruct (ctx_listening (set_viewEnabled v s));
      [apply tryStartStopUrlFinder_inv|]; exact H.
Qed.

Lemma construct_inv remote setting flag : ctl_inv (construct remote setting flag).
Proof.
  unfold construct. destruct remote.
  - apply tryStartStopUrlFinder_inv. split.
    + right. exists 0. simpl. auto.
    + simpl. discriminate.
  - split; [left; reflexivity | simpl; discriminate].
Qed.

Lemma reachable_inv s : reachable s -> ctl_inv s.
Proof.
  induction 1; [apply construct_inv | apply step_inv; assumption].
Qed.

Lemma dispose_nil h : dispose h [] = [].
Proof. reflexivity. Qed.

Lemma tryStartStopUrlFinder_live_ctx_nil s :
  live_ctx s = [] -> live_ctx (tryStartStopUrlFinder s) = [].
Proof.
  intros H. unfold tryStartStopUrlFinder, startUrlFinder, stopUrlFinder,
    new_UrlFinder, dispose_contextServiceListener.
  destruct (autoForwardPorts s).
  - destruct (negb (is_some (urlFinder s)) && negb (viewEnabled s)); [exact H|].
    destruct (contextServiceListener s); simpl; rewrite H; reflexivity.
  - destruct (urlFinder s); simpl; exact H.
Qed.

Lemma step_live_ctx_nil s e : live_ctx s = [] -> live_ctx (step s e) = [].
Proof.
  intros H. destruct e as [a v | a v]; simpl; destruct a; try exact H.
  - apply tryStartStopUrlFinder_live_ctx_nil. exact H.
  - destruct (ctx_listening (set_viewEnabled v s));
      [apply tryStartStopUrlFinder_live_ctx_nil|]; exact H.
Qed.

Lemma run_live_ctx_nil es : forall s, live_ctx s = [] -> live_ctx (run s es) = [].
Proof.
  induction es as [|e es IH]; intros s H; simpl; [exact H|].
  apply IH. apply step_live_ctx_nil. exact H.
Qed.

(** C1: a detected local URL issues exactly one forward request, for
    that URL, when [mapHasTunnelLocalhostOrAllInterfaces] answers false,
    and none otherwise; when it answers true the handler does nothing. *)
Theorem onDidMatchLocalUrl_forwards_iff_uncovered
    (M : Type) (mapHas : M -> string -> nat -> bool) (forwarded : M)
    (u : local_url) (res : option tunnel) :
  filter is_forward (onDidMatchLocalUrl M mapHas forwarded u res) =
    (if mapHas forwarded (url_host u) (url_port u) then [] else [Forward u]) /\
  (if mapHas forwarded (url_host u) (url_port u)
   then onDidMatchLocalUrl M mapHas forwarded u res = [] else True).
Proof.
  unfold onDidMatchLocalUrl.
  destruct (mapHas forwarded (url_host u) (url_port u)); [split; reflexivity|].
  split; [|exact I]. destruct res; reflexivity.
Qed.

(** C7: when the forward resolves to no entry the handler's only effect
    is the forward request itself (no prompt, nothing surfaced); when it
    resolves to an entry the single prompt is shown for that entry. *)
Theorem onDidMatchLocalUrl_prompt_only_on_entry
    (M : Type) (mapHas : M -> string -> nat -> bool) (forwarded : M)
    (u : local_url) (res : option tunnel) :
  match res with
  | None =>
      onDidMatchLocalUrl M mapHas forwarded u res =
        (if mapHas forwarded (url_host u) (url_port u) then [] else [Forward u])
  | Some t =>
      filter is_prompt (onDidMatchLocalUrl M mapHas forwarded u res) =
        (if mapHas forwarded (url_host u) (url_port u) then []
         else [Prompt (MakeAddress (tunnelRemoteHost t) (tunnelRemotePort t))
                      (localAddress t)
                      ["Open in Browser"%string; "Show Forwarded Ports"%string]
                      "remote.tunnelsView.autoForwardNeverShow"%string])
  end.
Proof.
  unfold onDidMatchLocalUrl.
  destruct res as [t|]; destruct (mapHas forwarded (url_host u) (url_port u));
    reflexivity.
Qed.

(** C8: stopping is idempotent; with no scanner it changes nothing, with
    a scanner it disposes exactly that scanner once and clears the field. *)
Theorem stopUrlFinder_noop_or_dispose_once (s : state) :
  stopUrlFinder (stopUrlFinder s) = stopUrlFinder s /\
  match urlFinder s with
  | None => stopUrlFinder s = s
  | Some f =>
      urlFinder (stopUrlFinder s) = None /\
      finder_disposals (stopUrlFinder s) = f :: finder_disposals s /\
      live_finders (stopUrlFinder s) = dispose f (live_finders s) /\
      match_listeners (stopUrlFinder s) = match_listeners s /\
      live_ctx (stopUrlFinder s) = live_ctx s
  end.
Proof.
  unfold stopUrlFinder.
  destruct (urlFinder s) eqn:E; simpl; [|rewrite E; split; reflexivity].
  repeat split.
Qed.

(** C2 (the code re-creates the scanner): with a scanner running, a
    configuration change that keeps the setting on runs [startUrlFinder]
    again, which creates a second scanner and match listener without
    disposing the first; turning the setting off then disposes only the
    second, and the first stays live. *)
Theorem startUrlFinder_reentry_leaks_scanner :
  let s := construct true true true in
  let s2 := step s (ConfigChanged true true) in
  let s3 := step s2 (ConfigChanged true false) in
  urlFinder s = Some 1 /\ live_finders s = [1] /\ match_listeners s = [1] /\
  urlFinder s2 = Some 2 /\ live_finders s2 = [2; 1] /\ match_listeners s2 = [2; 1] /\
  urlFinder s3 = None /\ live_finders s3 = [1].
Proof. vm_compute. repeat split. Qed.

(** C3 (corrected): once a scanner is running, the capability-change
    listener has been disposed and is never attached again; a capability
    change, to false or otherwise, leaves the scanner running. *)
Theorem active_controller_ignores_capability_change
    (s : state) (f : nat) (affects v : bool) :
  reachable s -> urlFinder s = Some f ->
  In f (live_finders s) /\
  urlFinder (step s (ContextChanged affects v)) = Some f /\
  live_finders (step s (ContextChanged affects v)) = live_finders s /\
  (forall es, live_ctx (run s es) = []).
Proof.
  intros Hr Hf. destruct (reachable_inv s Hr) as [Hctx Hlive].
  assert (Hnil : live_ctx s = []).
  { destruct Hctx as [Hn | (h & _ & _ & Hu)]; [exact Hn|].
    rewrite Hf in Hu; discriminate. }
  split; [apply Hlive; exact Hf|].
  split; [|split].
  - simpl. destruct affects; [|exact Hf].
    unfold ctx_listening. simpl. rewrite Hnil.
    destruct (contextServiceListener s); exact Hf.
  - simpl. destruct affects; [|reflexivity].
    unfold ctx_listening. simpl. rewrite Hnil.
    destruct (contextServiceListener s); reflexivity.
  - intros es. apply run_live_ctx_nil. exact Hnil.
Qed.

(** C3 counterexample: with the scanner running, the capability flag
    goes false; the scanner is not stopped and no listener is attached. *)
Lemma capability_off_keeps_scanner :
  let s := step (construct true true true) (ContextChanged true false) in
  viewEnabled s = false /\ urlFinder s = Some 1 /\ live_finders s = [1] /\
  live_ctx s = [] /\ finder_disposals s = [].
Proof. vm_compute. repeat split. Qed.

(** C6 (corrected): with no scanner running, the start path creates a
    scanner exactly when the setting is on and the capability flag is
    true. *)
Theorem tryStartStopUrlFinder_idle_needs_flag (s : state) :
  urlFinder s = None ->
  live_finders (tryStartStopUrlFinder s) =
    (if autoForwardPorts s && viewEnabled s then next_id s :: live_finders s
     else live_finders s).
Proof.
  intros Hu. unfold tryStartStopUrlFinder, startUrlFinder, stopUrlFinder.
  rewrite Hu. simpl.
  destruct (autoForwardPorts s), (viewEnabled s); simpl; try reflexivity.
  unfold new_UrlFinder, dispose_contextServiceListener.
  destruct (contextServiceListener s); reflexivity.
Qed.

(** C6 counterexample: the flag went false after the scanner started;
    the start path then creates another scanner although the flag is
    false. *)
Lemma tryStartStopUrlFinder_flag_false_creates_scanner :
  let s := step (construct true true true) (ContextChanged true false) in
  autoForwardPorts s = true /\ viewEnabled s = false /\
  live_finders s = [1] /\ live_finders (tryStartStopUrlFinder s) = [2; 1].
Proof. vm_compute. repeat split. Qed.

Lemma active_controller_ignores_capability_change_witness :
  reachable (construct true true true) /\
  urlFinder (construct true true true) = Some 1 /\
  In 1 (live_finders (construct true true true)).
Proof.
  split; [apply reach_construct|]. split; [reflexivity|].
  apply (active_controller_ignores_capability_change
           (construct true true true) 1 true false).
  - apply reach_construct.
  - reflexivity.
Defined.

Lemma tryStartStopUrlFinder_idle_needs_flag_witness :
  urlFinder (initial true true true) = None /\
  live_finders (tryStartStopUrlFinder (initial true true true)) = [0].
Proof.
  split; [reflexivity|].
  apply (tryStartStopUrlFinder_idle_needs_flag (initial true true true)).
  reflexivity.
Defined.

End AutoForwardFacts.

(** * Properties of ForwardedPortsView *)
Module PortsViewFacts.
Import PortsView.

(** ** Badge and status-bar entry *)

(** The live badges are at most the one [_activityBadge] refers to, and
    the live status-bar entries are exactly the one [entryAccessor]
    refers to. *)
Definition badge_shape (s : badges) : Prop :=
  live_badges s = [] \/ exists b c, activityBadge s = Some b /\ live_badges s = [(b, c)].

Definition entry_shape (s : badges) : Prop :=
  live_entries s = match entryAccessor s with Some e => [e] | None => [] end.

Lemma updateActivityBadge_live s size vc :
  badge_shape s ->
  live_badges (updateActivityBadge size vc s) =
    (if (0 <? size) && vc then [(badge_next s, size)] else []) /\
  activityBadge (updateActivityBadge size vc s) =
    (if (0 <? size) && vc then Some (badge_next s) else activityBadge s).
Proof.
  intros Hs. unfold updateActivityBadge.
  assert (Hd : live_badges (match activityBadge s with
                 | Some b => {| activityBadge := activityBadge s;
                                live_badges := dispose_badge b (live_badges s);
                                badge_next := badge_next s; entryAccessor := entryAccessor s;
                                live_entries := live_entries s; entry_next := entry_next s |}
                 | None => s end) = []).
  { destruct (activityBadge s) as [b|] eqn:Eb;
      destruct Hs as [Hn | (b' & c & Eb' & Hl)]; simpl; rewrite ?Hn; try reflexivity.
    - assert (b' = b) as -> by congruence. rewrite Hl. simpl.
      rewrite Nat.eqb_refl. reflexivity.
    - congruence. }
  destruct (activityBadge s) as [b|] eqn:Eb; simpl in Hd |- *;
    destruct (0 <? size), vc; simpl; rewrite ?Hd, ?Eb; split; reflexivity.
Qed.

Lemma updateActivityBadge_entries s size vc :
  entryAccessor (updateActivityBadge size vc s) = entryAccessor s /\
  live_entries (updateActivityBadge size vc s) = live_entries s /\
  entry_next (updateActivityBadge size vc s) = entry_next s.
Proof.
  unfold updateActivityBadge.
  destruct (activityBadge s); destruct (0 <? size), vc; repeat split.
Qed.

Lemma updateStatusBar_badges s size :
  live_badges (updateStatusBar size s) = live_badges s /\
  activityBadge (updateStatusBar size s) = activityBadge s.
Proof.
  unfold updateStatusBar.
  destruct (entryAccessor s); [destruct (size =? 0) | destruct (0 <? size)];
    split; reflexivity.
Qed.

Lemma updateStatusBar_entries s size :
  entry_shape s ->
  entry_shape (updateStatusBar size s) /\
  List.length (live_entries (updateStatusBar size s)) = (if 0 <? size then 1 else 0).
Proof.
  unfold entry_shape, updateStatusBar. intros Hs.
  destruct (entryAccessor s) as [e|] eqn:Ee.
  - destruct (size =? 0) eqn:Ez; simpl.
    + apply Nat.eqb_eq in Ez. subst size. rewrite Hs. unfold dispose. simpl.
      destruct (Nat.eq_dec e e); [|contradiction]. split; reflexivity.
    + rewrite Ee, Hs. split; [reflexivity|].
      destruct size; [discriminate | reflexivity].
  - destruct (0 <? size) eqn:Ez; simpl.
    + rewrite Hs. split; reflexivity.
    + rewrite Ee, Hs. split; reflexivity.
Qed.

Lemma onTunnelChange_shape s size vc :
  badge_shape s -> entry_shape s ->
  badge_shape (onTunnelChange size vc s) /\ entry_shape (onTunnelChange size vc s) /\
  live_badges (onTunnelChange size vc s) =
    (if (0 <? size) && vc then [(badge_next s, size)] else []) /\
  List.length (live_entries (onTunnelChange size vc s)) = (if 0 <? size then 1 else 0).
Proof.
  intros Hb He. unfold onTunnelChange.
  destruct (updateActivityBadge_live s size vc Hb) as [Hl Ha].
  destruct (updateActivityBadge_entries s size vc) as (Hea & Hle & _).
  destruct (updateStatusBar_badges (updateActivityBadge size vc s) size) as [Hl' Ha'].
  assert (He1 : entry_shape (updateActivityBadge size vc s)).
  { unfold entry_shape in *. rewrite Hea, Hle. exact He. }
  destruct (updateStatusBar_entries _ size He1) as [He2 Hlen].
  split; [|split; [exact He2 | split; [rewrite Hl'; exact Hl | exact Hlen]]].
  unfold badge_shape. rewrite Hl', Ha', Hl, Ha.
  destruct ((0 <? size) && vc); [right; exists (badge_next s), size; split|left]; reflexivity.
Qed.

Lemma badges_reachable_shape s :
  badges_reachable s -> badge_shape s /\ entry_shape s.
Proof.
  induction 1 as [|s size vc _ [Hb He]].
  - split; [left|]; reflexivity.
  - destruct (onTunnelChange_shape s size vc Hb He) as (? & ? & _). split; assumption.
Qed.

(** C4 (corrected): after a tunnel-model notification the badge shows
    the forwarded-set size exactly when the size is positive and the
    tunnel view's container is found (no badge otherwise), and exactly one
    status-bar entry is live when the size is positive, none when zero. *)
Theorem onTunnelChange_badge_and_status (s : badges) (size : nat) (vc : bool) :
  badges_reachable s ->
  map snd (live_badges (onTunnelChange size vc s)) =
    (if (0 <? size) && vc then [size] else []) /\
  List.length (live_entries (onTunnelChange size vc s)) = (if 0 <? size then 1 else 0).
Proof.
  intros Hr. destruct (badges_reachable_shape s Hr) as [Hb He].
  destruct (onTunnelChange_shape s size vc Hb He) as (_ & _ & Hl & Hlen).
  rewrite Hl. split; [|exact Hlen].
  destruct ((0 <? size) && vc); reflexivity.
Qed.

(** C4 counterexample: one forwarded port, the container lookup fails:
    no badge is shown though the size is positive. *)
Lemma onTunnelChange_no_badge_without_container :
  0 < 1 /\ live_badges (onTunnelChange 1 false badges_initial) = [] /\
  List.length (live_entries (onTunnelChange 1 false badges_initial)) = 1.
Proof. split; [lia | split; reflexivity]. Qed.

(** C9: at most one activity badge is live at any time. *)
Theorem at_most_one_activity_badge (s : badges) :
  badges_reachable s -> List.length (live_badges s) <= 1.
Proof.
  intros Hr. destruct (badges_reachable_shape s Hr) as [[Hn | (b & c & _ & Hl)] _].
  - rewrite Hn. simpl. lia.
  - rewrite Hl. simpl. lia.
Qed.

(** C10: with a positive count but no container for the tunnel view,
    [updateActivityBadge] shows no badge: no [showViewContainerActivity]
    call is made and the live badges only shrink. *)
Theorem updateActivityBadge_needs_view_container (s : badges) (size : nat) :
  0 < size ->
  badge_next (updateActivityBadge size false s) = badge_next s /\
  incl (live_badges (updateActivityBadge size false s)) (live_badges s).
Proof.
  intros _. unfold updateActivityBadge.
  destruct (activityBadge s) as [b|]; destruct (0 <? size); simpl;
    (split; [reflexivity|]);
    try (intros x Hx; exact Hx).
  all: intros x Hx; unfold dispose_badge in Hx; apply filter_In in Hx; apply Hx.
Qed.

Lemma at_most_one_activity_badge_witness :
  badges_reachable (onTunnelChange 2 true badges_initial) /\
  List.length (live_badges (onTunnelChange 2 true badges_initial)) <= 1.
Proof.
  split; [apply breach_step, breach_init|].
  apply at_most_one_activity_badge. apply breach_step, breach_init.
Defined.

Lemma onTunnelChange_badge_and_status_witness :
  badges_reachable badges_initial /\
  map snd (live_badges (onTunnelChange 3 true badges_initial)) = [3] /\
  List.length (live_entries (onTunnelChange 3 true badges_initial)) = 1.
Proof.
  split; [apply breach_init|].
  apply (onTunnelChange_badge_and_status badges_initial 3 true). apply breach_init.
Defined.

Lemma updateActivityBadge_needs_view_container_witness :
  0 < 1 /\ badge_next (updateActivityBadge 1 false badges_initial) = 0.
Proof.
  split; [lia|].
  apply (updateActivityBadge_needs_view_container badges_initial 1). lia.
Defined.

(** ** Panel registration *)

(** Before the flag has first turned on: a remote session, flag false,
    one live listener, nothing registered. *)
Definition waiting (vc : bool) (s : panel) : Prop :=
  remoteAuthority s = true /\ viewEnabled s = false /\ viewContainerById s = vc /\
  registrations s = 0 /\
  exists h, contextKeyListener s = Some h /\ live_listeners s = [h].

(** After: no listener left, [r] registrations made. *)
Definition settled (r : nat) (s : panel) : Prop :=
  contextKeyListener s = None /\ live_listeners s = [] /\ registrations s = r.

Lemma panel_step_settled r s e : settled r s -> settled r (panel_step s e).
Proof.
  intros (Hc & Hl & Hr). destruct e as [a v]. unfold panel_step.
  destruct a; simpl; rewrite Hl; simpl; repeat split; assumption.
Qed.

Lemma run_settled r es : forall s, settled r s -> settled r (fold_left panel_step es s).
Proof.
  induction es as [|e es IH]; intros s Hs; simpl; [exact Hs|].
  apply IH, panel_step_settled, Hs.
Qed.

Lemma panel_step_waiting vc s e :
  waiting vc s ->
  if flips_on e then settled (if vc then 1 else 0) (panel_step s e)
  else waiting vc (panel_step s e).
Proof.
  intros (Hra & Hve & Hvc & Hreg & h & Hc & Hl).
  destruct s as [ra ve vc' ckl ll reg ln]; simpl in *; subst.
  destruct e as [[|] [|]]; unfold panel_step, flips_on; simpl;
    unfold enableForwardedPortsView, dispose; simpl;
    destruct (Nat.eq_dec h h); try contradiction; simpl.
  - destruct vc; repeat split.
  - repeat split. exists ln. split; reflexivity.
  - repeat split. exists h. split; reflexivity.
  - repeat split. exists h. split; reflexivity.
Qed.

Lemma run_waiting vc es : forall s,
  waiting vc s ->
  registrations (fold_left panel_step es s) =
    (if vc && existsb flips_on es then 1 else 0).
Proof.
  induction es as [|e es IH]; intros s Hs; simpl.
  - destruct Hs as (_ & _ & _ & Hreg & _). rewrite Hreg. destruct vc; reflexivity.
  - pose proof (panel_step_waiting vc s e Hs) as Hstep.
    destruct (flips_on e).
    + destruct (run_settled _ es _ Hstep) as (_ & _ & Hr). rewrite Hr.
      destruct vc; reflexivity.
    + apply IH. exact Hstep.
Qed.

Lemma panel_construct_waiting vc : waiting vc (panel_construct true false vc).
Proof. repeat split. exists 0. split; reflexivity. Qed.

(** C5 (corrected): in a remote session that starts with the flag false
    nothing is registered; over any sequence of context changes the panel
    is registered once if the flag turns on at some point and the remote
    view container is found, and never otherwise; later flips register
    nothing more. *)
Theorem panel_registered_at_most_once (vc : bool) (es : list ctx_event) :
  registrations (panel_construct true false vc) = 0 /\
  registrations (fold_left panel_step es (panel_construct true false vc)) =
    (if vc && existsb flips_on es then 1 else 0).
Proof.
  split; [reflexivity|]. apply run_waiting, panel_construct_waiting.
Qed.

(** C5 counterexample: the flag turns on, the container lookup fails, and
    the panel is never registered. *)
Lemma panel_not_registered_without_container :
  let s := fold_left panel_step [ContextChanged true true] (panel_construct true false false) in
  viewEnabled s = true /\ registrations s = 0.
Proof. split; reflexivity. Qed.

End PortsViewFacts.

(** * Further properties of remoteExplorer.ts *)
Module ShowChoiceFacts.
Import ShowChoice.

Lemma split_plus_head_no_plus s : has_plus (split_plus_head s) = false.
Proof.
  induction s as [|c r IH]; simpl; [reflexivity|].
  destruct (Ascii.eqb c "+"%char) eqn:E; simpl; [reflexivity|].
  rewrite E, IH. reflexivity.
Qed.

Lemma split_plus_decompose s :
  s = (split_plus_head s ++ split_plus_rest s)%string /\
  (split_plus_rest s = EmptyString \/ exists r, split_plus_rest s = String "+"%char r).
Proof.
  induction s as [|c r [IHeq IHrest]]; simpl; [split; [reflexivity | left; reflexivity]|].
  destruct (Ascii.eqb c "+"%char) eqn:E; simpl.
  - apply Ascii.eqb_eq in E. subst c. split; [reflexivity | right; exists r; reflexivity].
  - split; [rewrite <- IHeq; reflexivity | exact IHrest].
Qed.

(** X1: with a non-empty remote authority, "Show Forwarded Ports" sets
    the explorer target type to the authority's part before its first
    '+', which contains no '+' and is followed in the authority by nothing
    or by that '+'; it then opens the remote view container. *)
Theorem showChoice_sets_authority_prefix (ra : string) (x : explorer) :
  ra <> EmptyString ->
  targetType (showChoice_run (Some ra) x) = Some [split_plus_head ra] /\
  has_plus (split_plus_head ra) = false /\
  ra = (split_plus_head ra ++ split_plus_rest ra)%string /\
  (split_plus_rest ra = EmptyString \/ exists r, split_plus_rest ra = String "+"%char r) /\
  opened_containers (showChoice_run (Some ra) x) = VIEWLET_ID :: opened_containers x.
Proof.
  intros Hne. unfold showChoice_run.
  destruct (String.eqb ra EmptyString) eqn:E.
  { apply String.eqb_eq in E. contradiction. }
  destruct (split_plus_decompose ra) as [Hd Hr].
  split; [reflexivity|]. split; [apply split_plus_head_no_plus|].
  split; [exact Hd|]. split; [exact Hr | reflexivity].
Qed.


Lemma showChoice_sets_authority_prefix_witness :
  "ssh-remote+host"%string <> EmptyString /\
  targetType (showChoice_run (Some "ssh-remote+host"%string) (mkExplorer None []))
    = Some ["ssh-remote"%string].
Proof.
  split; [discriminate|].
  apply (showChoice_sets_authority_prefix "ssh-remote+host" (mkExplorer None [])).
  discriminate.
Defined.


End ShowChoiceFacts.

Module AutoForwardMore.
Import AutoForward.

(** Scanner handles are fresh: every live scanner is below [next_id]. *)
Definition fresh (s : state) : Prop :=
  forall x, In x (live_finders s) -> x < next_id s.

Lemma tryStartStopUrlFinder_fresh s : fresh s -> fresh (tryStartStopUrlFinder s).
Proof.
  unfold fresh, tryStartStopUrlFinder, startUrlFinder, stopUrlFinder,
    new_UrlFinder, dispose_contextServiceListener, dispose.
  intros H.
  destruct (autoForwardPorts s).
  - destruct (negb (is_some (urlFinder s)) && negb (viewEnabled s)); [exact H|].
    destruct (contextServiceListener s); simpl; intros x [Hx | Hx];
      [lia | specialize (H x Hx); lia | lia | specialize (H x Hx); lia].
  - destruct (urlFinder s); simpl; [|exact H].
    intros x Hx. apply in_remove in Hx. apply H, Hx.
Qed.

Lemma step_fresh s e : fresh s -> fresh (step s e).
Proof.
  intros H. destruct e as [[|] v | [|] v]; simpl; try exact H.
  - apply tryStartStopUrlFinder_fresh. exact H.
  - destruct (ctx_listening (set_viewEnabled v s));
      [apply tryStartStopUrlFinder_fresh|]; exact H.
Qed.

Lemma reachable_fresh s : reachable s -> fresh s.
Proof.
  induction 1 as [remote setting flag|s e _ IH].
  - unfold construct. destruct remote.
    + apply tryStartStopUrlFinder_fresh. intros x [].
    + intros x [].
  - apply step_fresh, IH.
Qed.

(** Whenever the setting is off, no scanner is referenced. *)
Lemma tryStartStopUrlFinder_off s :
  autoForwardPorts s = false -> urlFinder (tryStartStopUrlFinder s) = None.
Proof.
  intros H. unfold tryStartStopUrlFinder, stopUrlFinder. rewrite H.
  destruct (urlFinder s) eqn:E; simpl; [reflexivity | exact E].
Qed.

Lemma tryStartStopUrlFinder_autoForwardPorts s :
  autoForwardPorts (tryStartStopUrlFinder s) = autoForwardPorts s.
Proof.
  unfold tryStartStopUrlFinder, startUrlFinder, stopUrlFinder, new_UrlFinder,
    dispose_contextServiceListener.
  destruct (autoForwardPorts s) eqn:E.
  - destruct (negb (is_some (urlFinder s)) && negb (viewEnabled s)); [exact E|].
    destruct (contextServiceListener s); simpl; first [exact E | reflexivity].
  - destruct (urlFinder s); simpl; first [exact E | reflexivity].
Qed.

(** X3: outside a remote session the controller never has a live
    context-change subscription, so a context change never starts or
    stops a scanner, whatever happened before. *)
Theorem nonremote_ignores_context_changes
    (setting flag : bool) (es : list event) (affects v : bool) :
  let s := run (construct false setting flag) es in
  live_ctx s = [] /\
  urlFinder (step s (ContextChanged affects v)) = urlFinder s /\
  live_finders (step s (ContextChanged affects v)) = live_finders s.
Proof.
  cbv zeta.
  assert (Hnil : live_ctx (run (construct false setting flag) es) = []).
  { apply AutoForwardFacts.run_live_ctx_nil. reflexivity. }
  split; [exact Hnil|].
  remember (run (construct false setting flag) es) as s.
  simpl. destruct affects; [|split; reflexivity].
  unfold ctx_listening. simpl. rewrite Hnil.
  destruct (contextServiceListener s); split; reflexivity.
Qed.

(** X4: from a reachable state with no scanner, turning the setting on
    and then off again leaves no scanner referenced and the same live
    scanners as before; the scanner created in between (only when the
    capability flag is true) is the one disposed. *)
Theorem setting_on_then_off_from_idle (s : state) :
  reachable s -> urlFinder s = None ->
  let s' := run s [ConfigChanged true true; ConfigChanged true false] in
  urlFinder s' = None /\ live_finders s' = live_finders s /\
  finder_disposals s' =
    (if viewEnabled s then [next_id s] else []) ++ finder_disposals s.
Proof.
  intros Hr Hu. pose proof (reachable_fresh s Hr) as Hf. cbv zeta.
  unfold run. simpl.
  unfold tryStartStopUrlFinder, startUrlFinder, stopUrlFinder, new_UrlFinder,
    dispose_contextServiceListener, set_autoForwardPorts. simpl.
  rewrite Hu. simpl.
  destruct (viewEnabled s) eqn:Ev; simpl.
  - destruct (contextServiceListener s); simpl;
      (split; [reflexivity|]); (split; [|reflexivity]);
      (destruct (Nat.eq_dec (next_id s) (next_id s)); [|contradiction]);
      unfold dispose; apply notin_remove;
      intros Hin; specialize (Hf _ Hin); lia.
  - rewrite ?Hu. repeat split; try assumption.
Qed.

(** X5: in every reachable state where the auto-forward setting is off,
    the controller references no scanner. *)
Theorem setting_off_no_scanner_referenced (s : state) :
  reachable s -> autoForwardPorts s = false -> urlFinder s = None.
Proof.
  induction 1 as [remote setting flag|s e Hr IH]; intros Hoff.
  - unfold construct in *. destruct remote; [|reflexivity].
    rewrite tryStartStopUrlFinder_autoForwardPorts in Hoff.
    apply tryStartStopUrlFinder_off. exact Hoff.
  - destruct e as [[|] v | [|] v]; simpl in *.
    + rewrite tryStartStopUrlFinder_autoForwardPorts in Hoff.
      apply tryStartStopUrlFinder_off. exact Hoff.
    + apply IH. exact Hoff.
    + destruct (ctx_listening (set_viewEnabled v s)).
      * rewrite tryStartStopUrlFinder_autoForwardPorts in Hoff.
        apply tryStartStopUrlFinder_off. exact Hoff.
      * apply IH. exact Hoff.
    + apply IH. exact Hoff.
Qed.

Lemma setting_on_then_off_from_idle_witness :
  reachable (construct true false true) /\
  urlFinder (construct true false true) = None /\
  live_finders (run (construct true false true)
                  [ConfigChanged true true; ConfigChanged true false]) = [].
Proof.
  split; [apply reach_construct|]. split; [reflexivity|].
  apply (setting_on_then_off_from_idle (construct true false true)).
  - apply reach_construct.
  - reflexivity.
Defined.

Lemma setting_off_no_scanner_referenced_witness :
  reachable (step (construct true true true) (ConfigChanged true false)) /\
  autoForwardPorts (step (construct true true true) (ConfigChanged true false)) = false /\
  urlFinder (step (construct true true true) (ConfigChanged true false)) = None.
Proof.
  split; [apply reach_step, reach_construct|]. split; [reflexivity|].
  apply setting_off_no_scanner_referenced.
  - apply reach_step, reach_construct.
  - reflexivity.
Defined.

End AutoForwardMore.

Module PortsViewMoreFacts.
Import PortsView PortsViewMore.

(** X6: a second status-bar refresh with the same size changes nothing:
    repeated notifications neither add nor remove entries again. *)
Theorem updateStatusBar_idempotent (size : nat) (s : badges) :
  updateStatusBar size (updateStatusBar size s) = updateStatusBar size s.
Proof.
  unfold updateStatusBar.
  destruct (entryAccessor s) as [e|] eqn:Ee.
  - destruct (size =? 0) eqn:Ez; simpl.
    + apply Nat.eqb_eq in Ez. subst size. reflexivity.
    + rewrite ?Ee, ?Ez. reflexivity.
  - destruct (0 <? size) eqn:Ez; simpl.
    + destruct size; [discriminate | reflexivity].
    + rewrite ?Ee, ?Ez. reflexivity.
Qed.

Definition one_listener (s : panel) : Prop :=
  live_listeners s = match contextKeyListener s with Some h => [h] | None => [] end.

Lemma enableForwardedPortsView_one_listener s :
  one_listener s -> one_listener (enableForwardedPortsView s).
Proof.
  unfold one_listener, enableForwardedPortsView. intros H.
  destruct (contextKeyListener s) as [h|] eqn:Eh; simpl.
  - assert (Hd : dispose h (live_listeners s) = []).
    { rewrite H. unfold dispose. simpl.
      destruct (Nat.eq_dec h h); [reflexivity | contradiction]. }
    rewrite Hd.
    destruct (remoteAuthority s && viewEnabled s);
      [destruct (viewContainerById s) | destruct (remoteAuthority s)]; reflexivity.
  - destruct (remoteAuthority s && viewEnabled s);
      [destruct (viewContainerById s); simpl; rewrite ?Eh; exact H
      | destruct (remoteAuthority s); simpl; [rewrite H; reflexivity | rewrite Eh; exact H]].
Qed.

Lemma fold_enable_one_listener (affects : bool) (l : list nat) : forall s,
  one_listener s ->
  one_listener (fold_left (fun acc _ => if affects then enableForwardedPortsView acc else acc) l s).
Proof.
  induction l as [|x l IH]; intros s H; simpl; [exact H|].
  apply IH. destruct affects; [apply enableForwardedPortsView_one_listener|]; exact H.
Qed.

(** X7: the panel side of ForwardedPortsView never holds more than one
    live context-key subscription, and a live one is always the one in
    [contextKeyListener]. *)
Theorem panel_single_context_listener (s : panel) :
  panel_reachable s ->
  live_listeners s = match contextKeyListener s with Some h => [h] | None => [] end.
Proof.
  induction 1 as [remote flag vc | s [affects v] _ IH].
  - apply enableForwardedPortsView_one_listener. reflexivity.
  - unfold panel_step. apply fold_enable_one_listener.
    destruct affects; exact IH.
Qed.

(** X8: when the flag is already true in a remote session, the
    constructor registers the panel (if the remote view container is
    found), attaches no context listener, and no later context change
    registers it again. *)
Theorem panel_flag_initially_true (vc : bool) (es : list ctx_event) :
  let s := fold_left panel_step es (panel_construct true true vc) in
  registrations s = (if vc then 1 else 0) /\
  contextKeyListener s = None /\ live_listeners s = [].
Proof.
  cbv zeta.
  assert (H : PortsViewFacts.settled (if vc then 1 else 0) (panel_construct true true vc)).
  { destruct vc; repeat split. }
  destruct (PortsViewFacts.run_settled _ es _ H) as (Hc & Hl & Hr).
  split; [exact Hr | split; assumption].
Qed.

(** X9: outside a remote session the panel is never registered and no
    context listener is ever attached, whatever the flag does. *)
Theorem panel_nonremote_never_registered (flag vc : bool) (es : list ctx_event) :
  let s := fold_left panel_step es (panel_construct false flag vc) in
  registrations s = 0 /\ live_listeners s = [].
Proof.
  cbv zeta.
  assert (H : PortsViewFacts.settled 0 (panel_construct false flag vc)).
  { destruct flag; repeat split. }
  destruct (PortsViewFacts.run_settled _ es _ H) as (_ & Hl & Hr).
  split; assumption.
Qed.

(** X10: the [onViewsRegistered] listener refreshes the badge and status
    bar once, on the first registration batch that contains the tunnel
    view, and disposes itself; batches before it and all later batches
    change nothing. *)
Theorem views_registered_refreshes_once (tid : string)
    (es : list (list (list string) * nat * bool)) (b : badges) :
  run_views_registered tid es (true, b) =
    match first_tunnel_batch tid es with
    | Some (size, vc) => (false, onTunnelChange size vc b)
    | None => (true, b)
    end.
Proof.
  assert (Hdead : forall es b', run_views_registered tid es (false, b') = (false, b')).
  { induction es0 as [|[[e size] vc] es0 IH]; intros b'; simpl; [reflexivity|].
    apply IH. }
  induction es as [|[[e size] vc] es IH]; simpl; [reflexivity|].
  destruct (batch_has_tunnel tid e); simpl; [apply Hdead | apply IH].
Qed.

Lemma panel_single_context_listener_witness :
  panel_reachable (panel_step (panel_construct true false true) (ContextChanged true false)) /\
  live_listeners (panel_step (panel_construct true false true) (ContextChanged true false)) = [1].
Proof.
  split; [apply preach_step, preach_construct|].
  pose proof (panel_single_context_listener _
                (preach_step _ (ContextChanged true false) (preach_construct true false true))) as H.
  rewrite H. reflexivity.
Defined.

End PortsViewMoreFacts.
